(** * cocotb/decorators.py: tasks, tests and their decorators

    A shallow embedding of [RunningTask], [RunningCoroutine], [RunningTest]
    and the [test] decorator of [cocotb/decorators.py], with the properties
    of their completion protocol ([_advance], [kill], [abort], [retval]),
    of the test sort key and of the log capture handler. *)

From Stdlib Require Import ZArith List String Ascii Bool Lia.
From Stdlib Require Import Numbers.DecimalString.
From Stdlib Require Numbers.HexadecimalString.
Import ListNotations.
Open Scope string_scope.

Set Implicit Arguments.
#[local] Set Warnings "-register-all".

(** ** Python values *)

(** Exception classes.  The built-in ones the module names, the two the
    framework adds, and user-defined subclasses with their base. *)
Inductive exc_class : Type :=
| BaseException
| Exception
| KeyboardInterrupt
| StopIteration
| RuntimeError
| TypeError
| AssertionError
| LookupError
| KeyError
| ReturnValue
| CoroutineComplete
| UserException (name : string) (base : exc_class).

Fixpoint exc_class_eqb (c d : exc_class) : bool :=
  match c, d with
  | BaseException, BaseException => true
  | Exception, Exception => true
  | KeyboardInterrupt, KeyboardInterrupt => true
  | StopIteration, StopIteration => true
  | RuntimeError, RuntimeError => true
  | TypeError, TypeError => true
  | AssertionError, AssertionError => true
  | LookupError, LookupError => true
  | KeyError, KeyError => true
  | ReturnValue, ReturnValue => true
  | CoroutineComplete, CoroutineComplete => true
  | UserException n b, UserException n' b' => String.eqb n n' && exc_class_eqb b b'
  | _, _ => false
  end.

(** Method resolution order of an exception class: the class itself, then
    its bases up to [BaseException].  [CoroutineComplete] derives from
    [Exception] (line 67 of the source). *)
Fixpoint mro (c : exc_class) : list exc_class :=
  match c with
  | BaseException => [BaseException]
  | Exception => [Exception; BaseException]
  | KeyboardInterrupt => [KeyboardInterrupt; BaseException]
  | StopIteration => [StopIteration; Exception; BaseException]
  | RuntimeError => [RuntimeError; Exception; BaseException]
  | TypeError => [TypeError; Exception; BaseException]
  | AssertionError => [AssertionError; Exception; BaseException]
  | LookupError => [LookupError; Exception; BaseException]
  | KeyError => [KeyError; LookupError; Exception; BaseException]
  | ReturnValue => [ReturnValue; Exception; BaseException]
  | CoroutineComplete => [CoroutineComplete; Exception; BaseException]
  | UserException _ base => c :: mro base
  end.

Definition issubclass (c d : exc_class) : bool :=
  existsb (exc_class_eqb d) (mro c).

Inductive pyval : Type :=
| VNone
| VBool (b : bool)
| VInt (z : Z)
| VStr (s : string)
| VTuple (items : list pyval)
| VClass (c : exc_class)
| VObject (repr : string).

(** An exception instance: its class, its [args] and its traceback, the
    latter as the function names of the frames, outermost first. *)
Record exn : Type := mk_exn {
  exc_type : exc_class;
  exc_args : list pyval;
  exc_traceback : list string
}.

Definition isinstance (e : exn) (c : exc_class) : bool :=
  issubclass (exc_type e) c.

(** [e.with_traceback(tb)] *)
Definition with_traceback (e : exn) (tb : list string) : exn :=
  mk_exn (exc_type e) (exc_args e) tb.

(** An exception that passes through the frame of function [fn] gets that
    frame in front of its traceback. *)
Definition through_frame (fn : string) (e : exn) : exn :=
  with_traceback e (fn :: exc_traceback e).

(** A freshly constructed exception, not raised yet. *)
Definition new_exn (c : exc_class) (args : list pyval) : exn :=
  mk_exn c args [].

(** [CoroutineComplete(text)]: [Exception.__init__(self, text)]. *)
Definition CoroutineComplete_new (text : string) : exn :=
  new_exn CoroutineComplete [VStr text].

(** Modelled from the spec: [cocotb.result.ReturnValue] is not under src/.
    It is "the framework's ReturnValue signal carrying V": an exception whose
    [retval] attribute is the value given at construction, which is also its
    only argument. *)
Definition ReturnValue_new (retval : pyval) : exn :=
  new_exn ReturnValue [retval].

Definition e_retval (e : exn) : pyval := hd VNone (exc_args e).

(** [StopIteration.value]: the first argument, [None] without one. *)
Definition e_value (e : exn) : pyval := hd VNone (exc_args e).

(** What a call gives: a value, or an exception raised. *)
Inductive result (A : Type) : Type :=
| Returns (a : A)
| Raises (e : exn).
Arguments Returns {A} a.
Arguments Raises {A} e.

(** Modelled from the spec: [cocotb.outcomes] is not under src/.  An Outcome
    is "either [Value(payload)] or [Error(failure)]"; [get()] "yields the
    payload or re-raises/propagates the failure at the observation point". *)
Inductive Outcome : Type :=
| Value (value : pyval)
| Error (error : exn).

Definition Outcome_get (o : Outcome) : result pyval :=
  match o with
  | Value v => Returns v
  | Error e => Raises e
  end.

(** Modelled from the spec: [cocotb.utils.remove_traceback_frames] is not
    under src/.  It strips the named "internal framework frames" from the
    front of the traceback of a captured failure, in the order given, and
    gives the exception with the shorter traceback. *)
Fixpoint strip_frames (tb : list string) (frame_names : list string) {struct frame_names}
  : list string :=
  match frame_names with
  | [] => tb
  | n :: names =>
      match tb with
      | f :: tb' => if String.eqb f n then strip_frames tb' names else tb
      | [] => []
      end
  end.

Definition remove_traceback_frames (e : exn) (frame_names : list string) : exn :=
  with_traceback e (strip_frames (exc_traceback e) frame_names).

(** ** The world outside a task *)

Record log_record : Type := mk_record {
  rec_name : string;      (* name of the logger the record was sent to *)
  rec_level : string;
  rec_msg : string
}.

(** What a task can touch outside itself: the side effects the wrapped
    computations have had so far (latest last), the log, and the scheduler. *)
Record world : Type := mk_world {
  w_effects : list string;
  w_log : list log_record;
  w_scheduled : list nat
}.

Definition add_effects (effs : list string) (w : world) : world :=
  mk_world (w_effects w ++ effs) (w_log w) (w_scheduled w).

(** [logger.debug(msg)] on the logger called [name]. *)
Definition log_debug (name msg : string) (w : world) : world :=
  mk_world (w_effects w) (w_log w ++ [mk_record name "DEBUG" msg]) (w_scheduled w).

(** Modelled from the spec: the scheduler is not under src/;
    [cocotb.scheduler.unschedule(task)] "detaches the task from the driving
    scheduler's runnable set".  Tasks are known to it by identity. *)
Definition unschedule (task_id : nat) (w : world) : world :=
  mk_world (w_effects w) (w_log w)
           (filter (fun i => negb (Nat.eqb i task_id)) (w_scheduled w)).

(** ** Suspendable computations *)

(** How a generator or coroutine is resumed: [send(value)] or [throw(exc)]. *)
Inductive resume_cmd : Type :=
| Send (v : pyval)
| Throw (e : exn).

(** What resuming gives: the object yielded at the next suspension point, or
    the exception that left the body ([StopIteration(v)] on [return v]). *)
Inductive resumed : Type :=
| Yielded (request : pyval)
| Raised (e : exn).

(** How an Outcome resumes a computation: [Value.send(gen)] is
    [gen.send(value)] and [Error.send(gen)] is [gen.throw(error)]. *)
Definition Outcome_cmd (o : Outcome) : resume_cmd :=
  match o with
  | Value v => Send v
  | Error e => Throw e
  end.

(** A Python function object, as far as the decorators look at it.
    [TimeoutWrapped f] is the wrapper [test.__init__] builds around [f] when
    a timeout is given; [functools.wraps(f)] gives it the attributes of [f]. *)
Inductive pyfunc : Type :=
| Function (name qualname module : string) (doc : pyval)
| TimeoutWrapped (f : pyfunc).

Fixpoint f__name__ (f : pyfunc) : string :=
  match f with
  | Function name _ _ _ => name
  | TimeoutWrapped g => f__name__ g
  end.

Fixpoint f__qualname__ (f : pyfunc) : string :=
  match f with
  | Function _ qualname _ _ => qualname
  | TimeoutWrapped g => f__qualname__ g
  end.

Fixpoint f__module__ (f : pyfunc) : string :=
  match f with
  | Function _ _ module _ => module
  | TimeoutWrapped g => f__module__ g
  end.

Fixpoint f__doc__ (f : pyfunc) : pyval :=
  match f with
  | Function _ _ _ doc => doc
  | TimeoutWrapped g => f__doc__ g
  end.

(** ** The decorators *)

(** [class coroutine]: [__init__] keeps the function. *)
Record coroutine : Type := mk_coroutine {
  _func : pyfunc
}.

(** [class test(coroutine)].  Its attributes carry the prefix [test_] where
    [RunningTest] has an attribute of the same name. *)
Record test : Type := mk_test {
  test_coroutine : coroutine;
  test_id : nat;
  timeout_time : pyval;
  timeout_unit : pyval;
  test_expect_fail : pyval;
  test_expect_error : pyval;
  test_skip : pyval;
  test_stage : option Z;
  im_test : bool;
  name : string
}.

(** [test.__init__(self, f, timeout_time, timeout_unit, expect_fail,
    expect_error, skip, stage)], with the class attribute [_id_count] passed
    in and given back. *)
Definition test_init (_id_count : nat) (f : pyfunc)
    (timeout_time timeout_unit expect_fail expect_error skip : pyval)
    (stage : option Z) : test * nat :=
  let _id := _id_count in
  let _id_count := S _id_count in
  let f :=
    match timeout_time with
    | VNone => f
    | _ => TimeoutWrapped f
    end in
  let base := mk_coroutine f in
  let expect_error :=
    match expect_error with
    | VBool true => VTuple [VClass Exception]
    | VBool false => VTuple []
    | _ => expect_error
    end in
  (mk_test base _id timeout_time timeout_unit expect_fail expect_error skip
           stage true (f__name__ (_func base)),
   _id_count).

(** An exception type, and a tuple of exception types: what [expect_error]
    is documented to take besides a boolean. *)
Definition is_exc_type (v : pyval) : bool :=
  match v with
  | VClass _ => true
  | _ => false
  end.

Definition is_exc_type_tuple (v : pyval) : bool :=
  match v with
  | VTuple items => forallb is_exc_type items
  | _ => false
  end.

Definition is_bool (v : pyval) : bool :=
  match v with
  | VBool _ => true
  | _ => false
  end.

(** The defaults of the keyword arguments of [test.__init__]. *)
Definition test_init_defaults (_id_count : nat) (f : pyfunc) : test * nat :=
  test_init _id_count f VNone VNone (VBool false) (VBool false) (VBool false) None.

(** The keyword arguments of one [@cocotb.test(...)]. *)
Record test_kwargs : Type := mk_test_kwargs {
  kw_timeout_time : pyval;
  kw_timeout_unit : pyval;
  kw_expect_fail : pyval;
  kw_expect_error : pyval;
  kw_skip : pyval;
  kw_stage : option Z
}.

(** The tests of a file, decorated one after the other in the order they are
    defined: each [test.__init__] reads and bumps [_id_count]. *)
Fixpoint define_tests (_id_count : nat) (defs : list (pyfunc * test_kwargs))
  : list test * nat :=
  match defs with
  | [] => ([], _id_count)
  | (f, kw) :: defs =>
      let '(t, _id_count) :=
        test_init _id_count f (kw_timeout_time kw) (kw_timeout_unit kw)
          (kw_expect_fail kw) (kw_expect_error kw) (kw_skip kw) (kw_stage kw) in
      let '(ts, _id_count) := define_tests _id_count defs in
      (t :: ts, _id_count)
  end.

(** ** [public] *)

(** [sys.modules], as far as [public] looks at it: for the name of each
    loaded module the [__all__] entry of its [__dict__], [None] inside when
    the module has none; [None] outside for a name that is not loaded. *)
Definition sys_modules : Type := string -> option (option (list string)).

(** [public(f)]: [sys.modules[f.__module__]] raises [KeyError] for a module
    that is not loaded.  Otherwise [setdefault('__all__', [])] on the module
    of [f], then the name of [f] appended unless it is there, and [f] is given
    back. *)
Definition public (f : pyfunc) (mods : sys_modules) : result pyfunc * sys_modules :=
  match mods (f__module__ f) with
  | None => (Raises (new_exn KeyError [VStr (f__module__ f)]), mods)
  | Some entry =>
      let all :=
        match entry with
        | Some l => l
        | None => []
        end in
      let all :=
        if existsb (String.eqb (f__name__ f)) all then all
        else (all ++ [f__name__ f])%list in
      (Returns f,
       fun m => if String.eqb m (f__module__ f) then Some (Some all) else mods m)
  end.

(** ** Tasks *)

(** [ErrorLogHandler]: [fn] is a method bound to a list of strings (the
    [append] of the test's [error_messages]), so it acts on that list. *)
Record ErrorLogHandler : Type := mk_ErrorLogHandler {
  fn : string -> list string -> list string;
  level : string
}.

(** [list.append], as the action of the bound method on its list. *)
Definition list_append (msg : string) (l : list string) : list string :=
  l ++ [msg].

Definition ErrorLogHandler_init (fn : string -> list string -> list string)
  : ErrorLogHandler :=
  mk_ErrorLogHandler fn "DEBUG".

Definition dquote : string := String (ascii_of_nat 34) EmptyString.
Definition newline : string := String (ascii_of_nat 10) EmptyString.

Section Tasks.

(** The state of a suspended generator or coroutine, and what resuming it
    does: the side effects the body has until it suspends or ends, the
    state it is left in, and what it yields or raises. *)
Variable Frame : Type.
Variable resume : Frame -> resume_cmd -> list string * Frame * resumed.

(** [_debug]: whether COCOTB_SCHEDULER_DEBUG is in the environment. *)
Variable _debug : bool.

(** [sys.version_info >= (3, 6)] *)
Variable version_ge_3_6 : bool.

(** Python's [str()] on values and on Outcomes, [logging.Handler.format],
    and the clocks [time.time()] and [get_sim_time('ns')].  [SimLog] is
    [cocotb.log.SimLog(name, ident)], which is not under src/: the name of
    the logger it gives for a name and an identifier. *)
Variable str : pyval -> string.
Variable SimLog : string -> nat -> string.
Variable str_Outcome : Outcome -> string.
Variable format : log_record -> string.
Variable time_time : world -> Z.
Variable get_sim_time_ns : world -> Z.

(** What [RunningTask.__init__] can be given as [inst]. *)
Inductive pyobj : Type :=
| CoroutineObj (name qualname : string) (fr : Frame)  (* inspect.iscoroutine *)
| GeneratorObj (name qualname : string) (fr : Frame)  (* inspect.isgenerator *)
| AsyncGenObj (name qualname : string)                (* inspect.isasyncgen *)
| OtherObj (v : pyval).

(** A resumable computation: a coroutine object or a generator. *)
Definition is_resumable (inst : pyobj) : bool :=
  match inst with
  | CoroutineObj _ _ _ | GeneratorObj _ _ _ => true
  | _ => false
  end.

(** [pre%spost % arg]: a tuple on the right is taken as the argument list. *)
Definition percent_s (pre post : string) (arg : pyval) : result string :=
  match arg with
  | VTuple [] =>
      Raises (new_exn TypeError [VStr "not enough arguments for format string"])
  | VTuple [x] => Returns (pre ++ str x ++ post)
  | VTuple _ =>
      Raises (new_exn TypeError
                [VStr "not all arguments converted during string formatting"])
  | _ => Returns (pre ++ str arg ++ post)
  end.

(** [Outcome.send(gen)]: "as a value to receive, or a failure to raise
    there".  An exception that leaves the body passes through the frame of
    [send]. *)
Definition Outcome_send (o : Outcome) (gen : Frame) : list string * Frame * resumed :=
  let '(effs, gen', r) := resume gen (Outcome_cmd o) in
  match r with
  | Yielded v => (effs, gen', Yielded v)
  | Raised e => (effs, gen', Raised (through_frame "send" e))
  end.

Record RunningTask : Type := mk_RunningTask {
  _natively_awaitable : bool;
  _coro : Frame;
  __name__ : string;
  __qualname__ : string;
  _started : bool;
  _callbacks : list pyval;
  _outcome : option Outcome;
  log : string;          (* the name of the logger *)
  self_id : nat          (* id(self) *)
}.

Definition set_coro (self : RunningTask) (c : Frame) : RunningTask :=
  mk_RunningTask (_natively_awaitable self) c (__name__ self) (__qualname__ self)
    (_started self) (_callbacks self) (_outcome self) (log self) (self_id self).

Definition set_started (self : RunningTask) (b : bool) : RunningTask :=
  mk_RunningTask (_natively_awaitable self) (_coro self) (__name__ self)
    (__qualname__ self) b (_callbacks self) (_outcome self) (log self) (self_id self).

Definition set_outcome (self : RunningTask) (o : option Outcome) : RunningTask :=
  mk_RunningTask (_natively_awaitable self) (_coro self) (__name__ self)
    (__qualname__ self) (_started self) (_callbacks self) o (log self) (self_id self).

Definition set_log (self : RunningTask) (l : string) : RunningTask :=
  mk_RunningTask (_natively_awaitable self) (_coro self) (__name__ self)
    (__qualname__ self) (_started self) (_callbacks self) (_outcome self) l
    (self_id self).

(** [RunningTask.__init__(self, inst)] for the object with identity [id].
    The [log] property is lazy in the source; its value is the logger
    [SimLog("cocotb.coroutine.<qualname>", id(self))]. *)
Definition RunningTask_init (id : nat) (inst : pyobj) : result RunningTask :=
  let finish natively_awaitable name qualname fr :=
    Returns (mk_RunningTask natively_awaitable fr name qualname false [] None
               (SimLog ("cocotb.coroutine." ++ qualname) id) id) in
  let not_valid arg :=
    match percent_s ""
            " isn't a valid coroutine! Did you forget to use the yield keyword?"
            arg with
    | Returns msg => Raises (new_exn TypeError [VStr msg])
    | Raises e => Raises e
    end in
  match inst with
  | CoroutineObj name qualname fr => finish true name qualname fr
  | GeneratorObj name qualname fr => finish false name qualname fr
  | AsyncGenObj name qualname =>
      if version_ge_3_6 then
        Raises (new_exn TypeError
                  [VStr (qualname ++ " is an async generator, not a coroutine. "
                         ++ "You likely used the yield keyword instead of await.")])
      else not_valid (VObject ("<async_generator object " ++ qualname ++ ">"))
  | OtherObj v => not_valid v
  end.

(** The property [retval]. *)
Definition retval (self : RunningTask) : result pyval :=
  match _outcome self with
  | None => Raises (new_exn RuntimeError [VStr "coroutine is not complete"])
  | Some o => Outcome_get o
  end.

(** The property [_finished]. *)
Definition _finished (self : RunningTask) : bool :=
  match _outcome self with
  | None => false
  | Some _ => true
  end.

Definition has_started (self : RunningTask) : bool := _started self.

(** [__bool__] *)
Definition RunningTask_bool (self : RunningTask) : bool := negb (_finished self).

(** [RunningTask._advance(self, outcome)].  The exception the [except]
    clauses see has come through [send] and is caught in the frame of
    [_advance]. *)
Definition _advance (self : RunningTask) (outcome : Outcome) (w : world)
  : result pyval * RunningTask * world :=
  let self := set_started self true in
  let '(effs, gen, r) := Outcome_send outcome (_coro self) in
  let self := set_coro self gen in
  let w := add_effects effs w in
  match r with
  | Yielded v => (Returns v, self, w)
  | Raised e0 =>
      let e := through_frame "_advance" e0 in
      if isinstance e ReturnValue then
        (Raises (CoroutineComplete_new ""),
         set_outcome self (Some (Value (e_retval e))), w)
      else if isinstance e StopIteration then
        (Raises (CoroutineComplete_new ""),
         set_outcome self (Some (Value (e_value e))), w)
      else if isinstance e BaseException then
        (Raises (CoroutineComplete_new ""),
         set_outcome self
           (Some (Error (remove_traceback_frames e ["_advance"; "send"]))), w)
      else (Raises e, self, w)
  end.

(** [RunningTask.kill(self)] *)
Definition kill (self : RunningTask) (w : world) : RunningTask * world :=
  match _outcome self with
  | Some _ => (self, w)
  | None =>
      let w := if _debug then log_debug (log self) "kill() called on coroutine" w
               else w in
      let self := set_outcome self (Some (Value VNone)) in
      (self, unschedule (self_id self) w)
  end.

(** [class RunningCoroutine(RunningTask)] *)
Record RunningCoroutine : Type := mk_RunningCoroutine {
  task : RunningTask;
  _parent : coroutine;
  __doc__ : pyval;
  module : string;
  funcname : string
}.

Definition RunningCoroutine_init (id : nat) (inst : pyobj) (parent : coroutine)
  : result RunningCoroutine :=
  match RunningTask_init id inst with
  | Raises e => Raises e
  | Returns t =>
      Returns (mk_RunningCoroutine t parent (f__doc__ (_func parent))
                 (f__module__ (_func parent)) (f__name__ (_func parent)))
  end.

(** [coroutine.__call__]: [inst] is what the call of [self._func] gave. *)
Definition coroutine_call (self : coroutine) (id : nat) (inst : pyobj)
  : result RunningCoroutine :=
  RunningCoroutine_init id inst self.

(** [class RunningTest(RunningCoroutine)] *)
Record RunningTest : Type := mk_RunningTest {
  running : RunningCoroutine;
  error_messages : list string;
  started : bool;
  start_time : Z;
  start_sim_time : Z;
  expect_fail : pyval;
  expect_error : pyval;
  skip : pyval;
  stage : option Z;
  _id : nat;
  handler : ErrorLogHandler
}.

Definition set_task (self : RunningTest) (t : RunningTask) : RunningTest :=
  mk_RunningTest
    (mk_RunningCoroutine t (_parent (running self)) (__doc__ (running self))
       (module (running self)) (funcname (running self)))
    (error_messages self) (started self) (start_time self) (start_sim_time self)
    (expect_fail self) (expect_error self) (skip self) (stage self) (_id self)
    (handler self).

Definition set_error_messages (self : RunningTest) (l : list string) : RunningTest :=
  mk_RunningTest (running self) l (started self) (start_time self)
    (start_sim_time self) (expect_fail self) (expect_error self) (skip self)
    (stage self) (_id self) (handler self).

Definition set_start (self : RunningTest) (t st : Z) : RunningTest :=
  mk_RunningTest (running self) (error_messages self) true t st
    (expect_fail self) (expect_error self) (skip self) (stage self) (_id self)
    (handler self).

(** [ErrorLogHandler.handle(self, record)], on the list [fn] is bound to. *)
Definition handle (self : ErrorLogHandler) (record : log_record)
    (target : list string) : list string :=
  if String.eqb (rec_name record) "cocotb" then
    fn self (format record) target
  else target.

(** [RunningTest.__init__(self, inst, parent)] *)
Definition RunningTest_init (id : nat) (inst : pyobj) (parent : test)
  : result RunningTest :=
  let error_messages : list string := [] in
  match RunningCoroutine_init id inst (test_coroutine parent) with
  | Raises e => Raises e
  | Returns rc =>
      let rc :=
        mk_RunningCoroutine
          (set_log (task rc)
             (SimLog ("cocotb.test." ++ __qualname__ (task rc)) (self_id (task rc))))
          (_parent rc) (__doc__ rc) (module rc) (funcname rc) in
      Returns (mk_RunningTest rc error_messages false 0 0
                 (test_expect_fail parent) (test_expect_error parent)
                 (test_skip parent) (test_stage parent) (test_id parent)
                 (ErrorLogHandler_init list_append))
  end.

(** [test.__call__] *)
Definition test_call (self : test) (id : nat) (inst : pyobj) : result RunningTest :=
  RunningTest_init id inst self.

(** A record reaches the handler of the test: the handler appends to the
    list that is the test's [error_messages]. *)
Definition RunningTest_handle (self : RunningTest) (record : log_record)
  : RunningTest :=
  set_error_messages self (handle (handler self) record (error_messages self)).

Definition log_info (name msg : string) (w : world) : world :=
  mk_world (w_effects w) (w_log w ++ [mk_record name "INFO" msg]) (w_scheduled w).

(** [RunningTest._advance(self, outcome)] *)
Definition RunningTest_advance (self : RunningTest) (outcome : Outcome) (w : world)
  : result pyval * RunningTest * world :=
  let '(self, w) :=
    if started self then (self, w)
    else
      let w := log_info (log (task (running self)))
                 ("Starting test: " ++ dquote ++ funcname (running self) ++ dquote
                  ++ newline ++ "Description: " ++ str (__doc__ (running self))) w in
      (set_start self (time_time w) (get_sim_time_ns w), w) in
  let '(r, t, w) := _advance (task (running self)) outcome w in
  (r, set_task self t, w).

(** [RunningTest.abort(self, exc)] *)
Definition abort (self : RunningTest) (exc : exn) (w : world)
  : result unit * RunningTest * world :=
  match _outcome (task (running self)) with
  | Some _ => (Raises (new_exn AssertionError []), self, w)
  | None =>
      let outcome := Error exc in
      let w := if _debug then
                 log_debug (log (task (running self)))
                   ("outcome forced to " ++ str_Outcome outcome) w
               else w in
      let self := set_task self (set_outcome (task (running self)) (Some outcome)) in
      (Returns tt, self, unschedule (self_id (task (running self))) w)
  end.

(** ["%d" % z] *)
Definition format_d (z : Z) : string := NilZero.string_of_int (Z.to_int z).

(** [RunningTest.sort_name(self)] *)
Definition sort_name (self : RunningTest) : string :=
  match stage self with
  | None => module (running self) ++ "." ++ funcname (running self)
  | Some stage =>
      module (running self) ++ "." ++ format_d stage ++ "."
      ++ funcname (running self)
  end.

(** [RunningTask.send(self, value)] and [RunningTask.throw(self, exc)]: the
    call goes to the wrapped computation as it is; an exception that leaves
    the body passes through the frame of the method. *)
Definition RunningTask_send (self : RunningTask) (value : pyval) (w : world)
  : result pyval * RunningTask * world :=
  let '(effs, gen, r) := resume (_coro self) (Send value) in
  match r with
  | Yielded v => (Returns v, set_coro self gen, add_effects effs w)
  | Raised e => (Raises (through_frame "send" e), set_coro self gen, add_effects effs w)
  end.

Definition RunningTask_throw (self : RunningTask) (exc : exn) (w : world)
  : result pyval * RunningTask * world :=
  let '(effs, gen, r) := resume (_coro self) (Throw exc) in
  match r with
  | Yielded v => (Returns v, set_coro self gen, add_effects effs w)
  | Raised e => (Raises (through_frame "throw" e), set_coro self gen, add_effects effs w)
  end.

(** [kill] on a test: the method of [RunningTask], on the task the test is. *)
Definition RunningTest_kill (self : RunningTest) (w : world) : RunningTest * world :=
  let '(t, w) := kill (task (running self)) w in
  (set_task self t, w).

(** A forced end of a test: [kill()], or [abort(exc)] whose own result (an
    [AssertionError] or nothing) is dropped here. *)
Inductive forced_end : Type :=
| Kill
| Abort (exc : exn).

Definition force_end (st : RunningTest * world) (op : forced_end)
  : RunningTest * world :=
  match op with
  | Kill => RunningTest_kill (fst st) (snd st)
  | Abort exc =>
      let '(_, self, w) := abort (fst st) exc (snd st) in (self, w)
  end.

(** The outcome a forced end stores on a test that has none. *)
Definition forced_outcome (op : forced_end) : Outcome :=
  match op with
  | Kill => Value VNone
  | Abort exc => Error exc
  end.

End Tasks.

Arguments OtherObj {Frame} v.
Arguments AsyncGenObj {Frame} name qualname.

(** ** Bodies to run the model on *)

(** A body without [try]: a list of statements, run until it suspends or
    ends.  [Effect l] is a side effect visible from outside (a flag set). *)
Inductive stmt : Type :=
| Yield (request : pyval)
| Effect (label : string)
| Return (v : pyval)
| Raise (e : exn).

Fixpoint run_body (body : list stmt) : list string * list stmt * resumed :=
  match body with
  | [] => ([], [], Raised (new_exn StopIteration []))
  | Yield request :: rest => ([], rest, Yielded request)
  | Effect l :: rest =>
      let '(effs, fr, r) := run_body rest in (l :: effs, fr, r)
  | Return v :: _ => ([], [], Raised (new_exn StopIteration [v]))
  | Raise e :: _ => ([], [], Raised e)
  end.

(** A value sent in is dropped; an exception thrown in leaves the body, as no
    statement catches it. *)
Definition body_resume (body : list stmt) (cmd : resume_cmd)
  : list string * list stmt * resumed :=
  match cmd with
  | Send _ => run_body body
  | Throw e => ([], [], Raised e)
  end.

Definition body_str (v : pyval) : string :=
  match v with
  | VNone => "None"
  | VBool true => "True"
  | VBool false => "False"
  | VInt z => NilZero.string_of_int (Z.to_int z)
  | VStr s => s
  | VTuple _ => "(...)"
  | VClass _ => "<class>"
  | VObject repr => repr
  end.

(** The name [SimLog] gives: the name, then [.0x] and the identifier in
    hexadecimal. *)
Definition SimLog_hex (name : string) (ident : nat) : string :=
  name ++ ".0x"
  ++ HexadecimalString.NilZero.string_of_uint (Nat.to_hex_uint ident).

Definition new_task (id : nat) (body : list stmt) : RunningTask (list stmt) :=
  mk_RunningTask false body "body" "Tb.body" false [] None
    (SimLog_hex "cocotb.coroutine.Tb.body" id) id.

Definition empty_world : world := mk_world [] [] [].

(** A user failure, as it leaves a body called [body]. *)
Definition user_failure : exn :=
  mk_exn (UserException "TestFailure" Exception) [VStr "boom"] ["body"].

(** A [CoroutineComplete] raised by a body itself. *)
Definition body_CoroutineComplete : exn :=
  mk_exn CoroutineComplete [VStr "boom"] ["body"].

(** A test function of module [tests.test_dut] and its decorator. *)
Definition test_of_stage (fname : string) (stage : option Z) : test :=
  fst (test_init 0 (Function fname fname "tests.test_dut" VNone)
         VNone VNone (VBool false) (VBool false) (VBool false) stage).

(** The running test [parent] gives for a generator with body [body]. *)
Definition running_test (id : nat) (body : list stmt) (parent : test)
  : RunningTest (list stmt) :=
  mk_RunningTest
    (mk_RunningCoroutine
       (set_log (new_task id body) (SimLog_hex "cocotb.test.Tb.body" id))
       (test_coroutine parent)
       (f__doc__ (_func (test_coroutine parent)))
       (f__module__ (_func (test_coroutine parent)))
       (f__name__ (_func (test_coroutine parent))))
    [] false 0 0 (test_expect_fail parent) (test_expect_error parent)
    (test_skip parent) (test_stage parent) (test_id parent)
    (ErrorLogHandler_init list_append).

Definition record_to (name msg : string) : log_record := mk_record name "INFO" msg.

(** Tasks and tests the properties are run on below. *)
Definition flag_task : RunningTask (list stmt) :=
  new_task 7 [Effect "flag"; Return (VInt 1)].

Definition flag_world : world := mk_world [] [] [7].

Definition failing_task : RunningTask (list stmt) :=
  new_task 1 [Effect "flag"; Raise user_failure].

Definition returning_task : RunningTask (list stmt) :=
  new_task 1 [Return (VInt 1)].

Definition signalling_task : RunningTask (list stmt) :=
  new_task 1 [Raise body_CoroutineComplete].

Definition waiting_task : RunningTask (list stmt) :=
  new_task 1 [Yield (VObject "Timer"); Raise (ReturnValue_new (VInt 42))].

(** The first [_advance] of a task, as the scheduler does it. *)
Definition first_advance (self : RunningTask (list stmt))
  : result pyval * RunningTask (list stmt) * world :=
  _advance body_resume self (Value VNone) empty_world.

Definition after_first_advance (self : RunningTask (list stmt))
  : RunningTask (list stmt) :=
  snd (fst (first_advance self)).

Definition waiting_test : RunningTest (list stmt) :=
  running_test 3 [Yield (VObject "Timer")] (test_of_stage "test_wait" None).

Definition stage_10_test : RunningTest (list stmt) :=
  running_test 1 [] (test_of_stage "test_z" (Some 10%Z)).

Definition stage_2_test : RunningTest (list stmt) :=
  running_test 2 [] (test_of_stage "test_a" (Some 2%Z)).

Definition some_function : pyfunc :=
  Function "test_dut" "test_dut" "tests.test_dut" VNone.

(** [@cocotb.test(expect_error=v)] on [some_function]. *)
Definition test_expecting (v : pyval) : test :=
  fst (test_init 0 some_function VNone VNone (VBool false) v (VBool false) None).

Definition timed_kwargs (stage : option Z) : test_kwargs :=
  mk_test_kwargs (VInt 100) (VStr "ns") (VBool false) (VBool true) (VBool false) stage.

Definition plain_kwargs (stage : option Z) : test_kwargs :=
  mk_test_kwargs VNone VNone (VBool false) (VBool false) (VBool false) stage.

(** One loaded module, which exports one name so far. *)
Definition some_modules : sys_modules :=
  fun m => if String.eqb m "tests.test_dut" then Some (Some ["helper"]) else None.

Definition unloaded_function : pyfunc :=
  Function "f" "f" "tests.not_loaded" VNone.

(** Records to the logger [cocotb] and to the logger of [waiting_test]. *)
Definition root_record : log_record := record_to "cocotb" "from elsewhere".

Definition own_record : log_record :=
  record_to (log (task (running waiting_test))) "from the test".

Definition stage_2_test_b : RunningTest (list stmt) :=
  running_test 4 [] (test_of_stage "test_b" (Some 2%Z)).

Definition stage_7_test : RunningTest (list stmt) :=
  running_test 5 [] (test_of_stage "test_c" (Some 7%Z)).

(** A test with a timeout, and what calling it gives. *)
Definition timed_test : test :=
  fst (test_init 5 some_function (VInt 100) (VStr "ns") (VBool false) (VBool true)
         (VBool false) (Some 3%Z)).

Definition timed_running_test : RunningTest (list stmt) :=
  running_test 9 [Yield (VObject "Timer")] timed_test.

Definition no_clock (w : world) : Z := 0%Z.

(** The first [_advance] of [waiting_test], and the record it logs. *)
Definition waiting_test_started
  : result pyval * RunningTest (list stmt) * world :=
  RunningTest_advance body_resume body_str no_clock no_clock waiting_test
    (Value VNone) empty_world.

Definition start_record : log_record :=
  hd (record_to "" "") (w_log (snd waiting_test_started)).

Definition some_ends : list forced_end :=
  [Abort user_failure; Kill; Abort body_CoroutineComplete].

Definition some_records : list log_record :=
  [record_to "cocotb" "a"; record_to "cocotb.scheduler" "b";
   record_to "cocotb.test.Tb.body.0x3" "c"; record_to "cocotb" "d"].

(** ** Properties *)

Section TaskProperties.

Variable Frame : Type.
Variable resume : Frame -> resume_cmd -> list string * Frame * resumed.
Variable _debug : bool.

Lemma kill_finished (self : RunningTask Frame) (w : world) :
  _finished (fst (kill _debug self w)) = true.
Proof.
  unfold kill, _finished.
  destruct (_outcome self) eqn:E; simpl; [rewrite E|]; reflexivity.
Qed.

Lemma kill_detaches (self : RunningTask Frame) (w : world) :
  _outcome self = None ->
  ~ In (self_id self) (w_scheduled (snd (kill _debug self w))).
Proof.
  intros E. unfold kill. rewrite E. simpl.
  rewrite filter_In. intros [_ H].
  rewrite Nat.eqb_refl in H. discriminate.
Qed.

(** C1.  [kill()] is idempotent and forces completion without running the
    body.  With the outcome set it changes nothing.  With the outcome not
    set, whether or not the task was ever advanced, it sets the outcome to
    [Value(None)], which makes the task finished.  In both cases the
    wrapped computation stays in the state it was in and has no further
    side effect, and a second [kill()] changes nothing more. *)
Theorem kill_idempotent_forces_completion (self : RunningTask Frame) (w : world) :
  (forall o, _outcome self = Some o -> kill _debug self w = (self, w))
  /\ (_outcome self = None ->
      _outcome (fst (kill _debug self w)) = Some (Value VNone)
      /\ _finished (fst (kill _debug self w)) = true
      /\ retval (fst (kill _debug self w)) = Returns VNone)
  /\ _coro (fst (kill _debug self w)) = _coro self
  /\ _started (fst (kill _debug self w)) = _started self
  /\ w_effects (snd (kill _debug self w)) = w_effects w
  /\ kill _debug (fst (kill _debug self w)) (snd (kill _debug self w))
     = kill _debug self w.
Proof.
  unfold kill.
  destruct (_outcome self) as [o|] eqn:E.
  - repeat split; try discriminate; simpl.
    + rewrite E. reflexivity.
  - split; [discriminate|].
    split; [intros _; simpl; unfold _finished, retval; simpl; auto|].
    destruct _debug; simpl; auto.
Qed.

(** C3.  Reading [retval] before the outcome is set raises
    [RuntimeError("coroutine is not complete")]; once it is set, [retval]
    returns the payload of a [Value] and raises the failure of an
    [Error]. *)
Theorem retval_requires_completion (self : RunningTask Frame) :
  (_outcome self = None ->
     retval self = Raises (new_exn RuntimeError [VStr "coroutine is not complete"]))
  /\ (forall v, _outcome self = Some (Value v) -> retval self = Returns v)
  /\ (forall e, _outcome self = Some (Error e) -> retval self = Raises e).
Proof.
  unfold retval.
  repeat split; intros; match goal with H : _outcome _ = _ |- _ => rewrite H end;
    reflexivity.
Qed.

Lemma issubclass_BaseException (c : exc_class) : issubclass c BaseException = true.
Proof.
  induction c; try reflexivity.
  unfold issubclass in *. simpl. exact IHc.
Qed.

Lemma strip_framework_frames (e : exn) :
  remove_traceback_frames
    (through_frame "_advance" (through_frame "send" e)) ["_advance"; "send"] = e.
Proof. destruct e. reflexivity. Qed.

(** What [_advance] does on each way the body can end. *)
Lemma advance_yielded self outcome w effs gen v :
  resume (_coro self) (Outcome_cmd outcome) = (effs, gen, Yielded v) ->
  _advance resume self outcome w
  = (Returns v, set_coro (set_started self true) gen, add_effects effs w).
Proof.
  intros H. unfold _advance, Outcome_send. simpl. rewrite H. reflexivity.
Qed.

Lemma advance_ReturnValue self outcome w effs gen e :
  resume (_coro self) (Outcome_cmd outcome) = (effs, gen, Raised e) ->
  isinstance e ReturnValue = true ->
  _advance resume self outcome w
  = (Raises (CoroutineComplete_new ""),
     set_outcome (set_coro (set_started self true) gen) (Some (Value (e_retval e))),
     add_effects effs w).
Proof.
  intros H HR. unfold _advance, Outcome_send. simpl. rewrite H.
  unfold isinstance in *. simpl. rewrite HR. reflexivity.
Qed.

Lemma advance_StopIteration self outcome w effs gen e :
  resume (_coro self) (Outcome_cmd outcome) = (effs, gen, Raised e) ->
  isinstance e ReturnValue = false ->
  isinstance e StopIteration = true ->
  _advance resume self outcome w
  = (Raises (CoroutineComplete_new ""),
     set_outcome (set_coro (set_started self true) gen) (Some (Value (e_value e))),
     add_effects effs w).
Proof.
  intros H HR HS. unfold _advance, Outcome_send. simpl. rewrite H.
  unfold isinstance in *. simpl. rewrite HR, HS. reflexivity.
Qed.

Lemma advance_failure self outcome w effs gen e :
  resume (_coro self) (Outcome_cmd outcome) = (effs, gen, Raised e) ->
  isinstance e ReturnValue = false ->
  isinstance e StopIteration = false ->
  _advance resume self outcome w
  = (Raises (CoroutineComplete_new ""),
     set_outcome (set_coro (set_started self true) gen) (Some (Error e)),
     add_effects effs w).
Proof.
  intros H HR HS. unfold _advance, Outcome_send. simpl. rewrite H.
  unfold isinstance in *. simpl. rewrite HR, HS, issubclass_BaseException.
  change (with_traceback (with_traceback (with_traceback e _) _) _)
    with (remove_traceback_frames
            (through_frame "_advance" (through_frame "send" e))
            ["_advance"; "send"]).
  rewrite strip_framework_frames. reflexivity.
Qed.

(** C2.  A failure that leaves the wrapped computation during [_advance]
    (an exception that is neither a [ReturnValue] nor a [StopIteration]) is
    caught with the frames of [_advance] and [send] in front of its
    traceback, and is stored as an [Error] with those two frames stripped:
    the stored exception has the kind, the payload and the traceback the
    failure left the body with.  [retval] then raises that stored
    exception. *)
Theorem advance_stores_stripped_failure self outcome w effs gen e :
  resume (_coro self) (Outcome_cmd outcome) = (effs, gen, Raised e) ->
  isinstance e ReturnValue = false ->
  isinstance e StopIteration = false ->
  let caught := through_frame "_advance" (through_frame "send" e) in
  let self' := snd (fst (_advance resume self outcome w)) in
  exists stored,
    _outcome self' = Some (Error stored)
    /\ exc_traceback caught = "_advance" :: "send" :: exc_traceback e
    /\ stored = remove_traceback_frames caught ["_advance"; "send"]
    /\ exc_traceback stored = exc_traceback e
    /\ exc_type stored = exc_type e
    /\ exc_args stored = exc_args e
    /\ retval self' = Raises stored.
Proof.
  intros H HR HS caught self'. exists e. subst caught self'.
  rewrite (advance_failure self outcome w H HR HS).
  rewrite strip_framework_frames. simpl.
  repeat split; reflexivity.
Qed.

(** C5, as the code has it.  A [CoroutineComplete] raised by the wrapped
    computation itself is captured like any other failure: it becomes the
    stored [Error] outcome, and [retval] raises it.  What [_advance] raises
    to its caller is a new [CoroutineComplete] with an empty text. *)
Theorem advance_captures_CoroutineComplete self outcome w effs gen e :
  resume (_coro self) (Outcome_cmd outcome) = (effs, gen, Raised e) ->
  exc_type e = CoroutineComplete ->
  let self' := snd (fst (_advance resume self outcome w)) in
  _outcome self' = Some (Error e)
  /\ retval self' = Raises e
  /\ fst (fst (_advance resume self outcome w)) = Raises (CoroutineComplete_new "").
Proof.
  intros H HC self'. subst self'.
  assert (HR : isinstance e ReturnValue = false)
    by (unfold isinstance; rewrite HC; reflexivity).
  assert (HS : isinstance e StopIteration = false)
    by (unfold isinstance; rewrite HC; reflexivity).
  rewrite (advance_failure self outcome w H HR HS). simpl.
  repeat split; reflexivity.
Qed.

(** C6.  When the body ends by returning [V], either with a plain return
    (a [StopIteration] with value [V] leaves it) or with the framework's
    [ReturnValue] carrying [V], the stored outcome is [Value(V)] and
    [retval] returns [V]. *)
Theorem advance_stores_returned_value self outcome w effs gen e V :
  resume (_coro self) (Outcome_cmd outcome) = (effs, gen, Raised e) ->
  (exc_type e = StopIteration /\ e_value e = V)
  \/ (isinstance e ReturnValue = true /\ e_retval e = V) ->
  let self' := snd (fst (_advance resume self outcome w)) in
  _outcome self' = Some (Value V)
  /\ _finished self' = true
  /\ retval self' = Returns V.
Proof.
  intros H [[HT HV] | [HR HV]] self'; subst self'.
  - assert (HR : isinstance e ReturnValue = false)
      by (unfold isinstance; rewrite HT; reflexivity).
    assert (HS : isinstance e StopIteration = true)
      by (unfold isinstance; rewrite HT; reflexivity).
    rewrite (advance_StopIteration self outcome w H HR HS), HV.
    repeat split; reflexivity.
  - rewrite (advance_ReturnValue self outcome w H HR), HV.
    repeat split; reflexivity.
Qed.

Variable version_ge_3_6 : bool.
Variable str : pyval -> string.
Variable SimLog : string -> nat -> string.
Variable str_Outcome : Outcome -> string.
Variable format : log_record -> string.
Variable time_time : world -> Z.
Variable get_sim_time_ns : world -> Z.

(** A test delegates to the [_advance] of the task it is. *)
Lemma RunningTest_advance_delegates (self : RunningTest Frame) outcome w :
  let out := RunningTest_advance resume str time_time get_sim_time_ns self outcome w in
  let base := _advance resume (task (running self)) outcome w in
  fst (fst out) = fst (fst base)
  /\ task (running (snd (fst out))) = snd (fst base).
Proof.
  unfold RunningTest_advance, _advance, Outcome_send. simpl.
  destruct (started self); simpl;
    destruct (resume (_coro (task (running self))) (Outcome_cmd outcome))
      as [[effs gen] [v|e]]; simpl; auto;
    repeat match goal with |- context [if ?b then _ else _] => destruct b end;
    simpl; auto.
Qed.

Lemma percent_s_TypeError pre post arg e :
  percent_s str pre post arg = Raises e -> exc_type e = TypeError.
Proof.
  destruct arg as [| | | |[|x [|y l]]| |]; simpl; intros H;
    try discriminate; injection H as <-; reflexivity.
Qed.

(** C7.  Constructing a task from anything that is neither a coroutine
    object nor a generator raises [TypeError] in the constructor: no task
    comes to exist that could be advanced.  The same holds for the
    constructors of the subclasses and for the calls of the decorators,
    which go through it. *)
Theorem init_rejects_non_resumable (id : nat) (inst : pyobj Frame) :
  is_resumable inst = false ->
  exists e,
    exc_type e = TypeError
    /\ RunningTask_init version_ge_3_6 str SimLog id inst = Raises e
    /\ (forall parent,
          coroutine_call version_ge_3_6 str SimLog parent id inst = Raises e)
    /\ (forall parent,
          test_call version_ge_3_6 str SimLog parent id inst = Raises e).
Proof.
  intros H.
  unfold coroutine_call, test_call, RunningTest_init, RunningCoroutine_init.
  destruct inst as [n q fr | n q fr | n q | v]; try discriminate; simpl.
  - destruct version_ge_3_6; simpl; eexists; repeat split; reflexivity.
  - destruct (percent_s str _ _ v) as [msg|e] eqn:E.
    + eexists; repeat split; reflexivity.
    + exists e. apply percent_s_TypeError in E. repeat split; auto.
Qed.

(** C4.  [abort(exc)] checks its precondition and is not idempotent.  On a
    test whose outcome is set it raises [AssertionError] and changes
    nothing.  On a test whose outcome is not set it sets the outcome to
    [Error(exc)] at once, and [retval] then raises [exc].  A second
    [abort] after any first one raises [AssertionError]. *)
Theorem abort_checks_precondition (self : RunningTest Frame) (exc : exn) (w : world) :
  (forall o, _outcome (task (running self)) = Some o ->
     abort _debug str_Outcome self exc w
     = (Raises (new_exn AssertionError []), self, w))
  /\ (_outcome (task (running self)) = None ->
      let self' := snd (fst (abort _debug str_Outcome self exc w)) in
      fst (fst (abort _debug str_Outcome self exc w)) = Returns tt
      /\ _outcome (task (running self')) = Some (Error exc)
      /\ retval (task (running self')) = Raises exc
      /\ _coro (task (running self')) = _coro (task (running self))
      /\ w_effects (snd (abort _debug str_Outcome self exc w)) = w_effects w)
  /\ (forall exc' w',
        fst (fst (abort _debug str_Outcome
                    (snd (fst (abort _debug str_Outcome self exc w))) exc' w'))
        = Raises (new_exn AssertionError [])).
Proof.
  unfold abort.
  destruct (_outcome (task (running self))) as [o|] eqn:E.
  - split; [reflexivity|]. split; [discriminate|].
    intros exc' w'. simpl. rewrite E. reflexivity.
  - split; [discriminate|]. split.
    + intros _. simpl. repeat split. destruct _debug; reflexivity.
    + intros exc' w'. reflexivity.
Qed.

Lemma ascii_compare_refl (c : ascii) : Ascii.compare c c = Eq.
Proof. unfold Ascii.compare. apply N.compare_refl. Qed.

Lemma compare_common_prefix (p a b : string) :
  String.compare (p ++ a) (p ++ b) = String.compare a b.
Proof.
  induction p as [|c p IH]; simpl; [reflexivity|].
  rewrite ascii_compare_refl. exact IH.
Qed.

(** C8.  The sort key is the module and the function name joined by a dot,
    with the stage in decimal between them when there is one.  So, of two
    tests of one module, the one with stage 10 has the smaller key than the
    one with stage 2 in the lexicographic order of strings, whatever their
    function names. *)
Theorem sort_name_stage_10_before_2 (a b : RunningTest Frame) :
  (stage a = None ->
     sort_name a = module (running a) ++ "." ++ funcname (running a))
  /\ (forall n, stage a = Some n ->
        sort_name a
        = module (running a) ++ "." ++ format_d n ++ "." ++ funcname (running a))
  /\ (module (running a) = module (running b) ->
      stage a = Some 10%Z -> stage b = Some 2%Z ->
      String.compare (sort_name a) (sort_name b) = Lt
      /\ String.ltb (sort_name a) (sort_name b) = true).
Proof.
  unfold sort_name, String.ltb.
  split; [intros ->; reflexivity|].
  split; [intros n ->; reflexivity|].
  intros Hm -> ->. rewrite Hm, compare_common_prefix. simpl. auto.
Qed.

Lemma handle_other_name (h : ErrorLogHandler) (r : log_record) (l : list string) :
  String.eqb (rec_name r) "cocotb" = false -> handle format h r l = l.
Proof. unfold handle. intros ->. reflexivity. Qed.

Lemma descendant_name_differs (suffix : string) :
  String.eqb ("cocotb." ++ suffix) "cocotb" = false.
Proof. reflexivity. Qed.

Lemma handled_records (records : list log_record) :
  forall rt : RunningTest Frame,
    fn (handler rt) = list_append ->
    error_messages (fold_left (RunningTest_handle format) records rt)
    = (error_messages rt
       ++ map format (filter (fun r => String.eqb (rec_name r) "cocotb") records))%list.
Proof.
  induction records as [|r records IH]; intros rt Hfn; simpl.
  - symmetry. apply app_nil_r.
  - rewrite IH by exact Hfn.
    unfold RunningTest_handle, handle. simpl.
    destruct (String.eqb (rec_name r) "cocotb"); simpl.
    + rewrite Hfn. unfold list_append. rewrite <- app_assoc. reflexivity.
    + reflexivity.
Qed.

Lemma logger_below_cocotb (qualname suffix : string) :
  exists rest, ("cocotb.test." ++ qualname) ++ suffix = "cocotb." ++ rest.
Proof. exists ("test." ++ qualname ++ suffix). reflexivity. Qed.

(** C9, as the code has it.  The buffer of captured logs of a test starts
    empty and gets the formatted record appended for exactly the records sent
    to the logger [cocotb] itself, in order: the root logger of the framework,
    the same for every test, not a namespace of the task.  A record sent to a
    logger below it, whose name is [cocotb.] followed by anything, leaves the
    buffer as it is.  The logger of the test itself, which [SimLog] names
    after [cocotb.test.<qualname>], is such a logger: a record sent to it is
    not captured. *)
Theorem captured_logs_root_logger_only id inst parent (rt : RunningTest Frame)
    (records : list log_record) :
  RunningTest_init version_ge_3_6 str SimLog id inst parent = Returns rt ->
  (forall name ident, exists suffix, SimLog name ident = name ++ suffix) ->
  error_messages rt = []
  /\ error_messages (fold_left (RunningTest_handle format) records rt)
     = map format (filter (fun r => String.eqb (rec_name r) "cocotb") records)
  /\ (forall (rt' : RunningTest Frame) r,
        rec_name r = "cocotb" ->
        fn (handler rt') = list_append ->
        error_messages (RunningTest_handle format rt' r)
        = (error_messages rt' ++ [format r])%list)
  /\ (forall (rt' : RunningTest Frame) r suffix,
        rec_name r = "cocotb." ++ suffix ->
        RunningTest_handle format rt' r = rt')
  /\ (exists rest, log (task (running rt)) = "cocotb." ++ rest)
  /\ (forall (rt' : RunningTest Frame) r,
        rec_name r = log (task (running rt)) ->
        RunningTest_handle format rt' r = rt').
Proof.
  intros Hinit HSimLog.
  assert (H0 : error_messages rt = [] /\ fn (handler rt) = list_append
               /\ exists rest, log (task (running rt)) = "cocotb." ++ rest).
  { unfold RunningTest_init in Hinit.
    destruct (RunningCoroutine_init version_ge_3_6 str SimLog id inst
                (test_coroutine parent)) as [rc|];
      [|discriminate].
    injection Hinit as <-. split; [reflexivity|]. split; [reflexivity|].
    cbn [log task running set_log].
    match goal with
    | |- exists rest, SimLog ?n ?i = _ => destruct (HSimLog n i) as [suffix ->]
    end.
    apply (logger_below_cocotb (__qualname__ (task rc)) suffix). }
  destruct H0 as [Hnil [Hfn [rest Hlog]]].
  assert (Hdrop : forall (rt' : RunningTest Frame) r suffix,
             rec_name r = "cocotb." ++ suffix ->
             RunningTest_handle format rt' r = rt').
  { intros rt' r suffix Hname. unfold RunningTest_handle.
    rewrite handle_other_name by (rewrite Hname; apply descendant_name_differs).
    destruct rt'. reflexivity. }
  split; [exact Hnil|].
  split; [rewrite handled_records by exact Hfn; rewrite Hnil; reflexivity|].
  split; [|split; [exact Hdrop|split]].
  - intros rt' r Hname Hfn'. unfold RunningTest_handle, handle. simpl.
    rewrite Hname, Hfn'. reflexivity.
  - exists rest. exact Hlog.
  - intros rt' r Hname. apply (Hdrop rt' r rest). rewrite Hname. exact Hlog.
Qed.

End TaskProperties.

(** C10, as the code has it.  [expect_error=True] is stored as the tuple
    [(Exception,)] and [expect_error=False] as the empty tuple; anything else
    is stored as given.  So for a boolean, an exception type or a tuple of
    exception types, what is stored is an exception type or a tuple of
    exception types, and it is never a boolean. *)
Theorem test_init_expect_error (_id_count : nat) (f : pyfunc)
    (timeout_time timeout_unit expect_fail expect_error skip : pyval)
    (stage : option Z) :
  let stored :=
    test_expect_error
      (fst (test_init _id_count f timeout_time timeout_unit expect_fail
              expect_error skip stage)) in
  (expect_error = VBool true -> stored = VTuple [VClass Exception])
  /\ (expect_error = VBool false -> stored = VTuple [])
  /\ (is_bool expect_error = false -> stored = expect_error)
  /\ (is_bool expect_error = true \/ is_exc_type expect_error = true
      \/ is_exc_type_tuple expect_error = true ->
      is_exc_type stored = true \/ is_exc_type_tuple stored = true)
  /\ is_bool stored = false.
Proof.
  unfold test_init. simpl.
  split; [intros ->; reflexivity|].
  split; [intros ->; reflexivity|].
  split; [destruct expect_error as [|[|]| | | | |]; simpl; intros H;
          try discriminate; reflexivity|].
  split.
  - destruct expect_error as [|[|]| | | | |]; simpl; intros [H|[H|H]];
      try discriminate; auto.
  - destruct expect_error as [|[|]| | | | |]; reflexivity.
Qed.

(** ** The properties at concrete tasks *)

(** A task killed before its first advance: the body, which would set a flag
    and return 1, has not run. *)
Lemma kill_idempotent_forces_completion_witness :
  _outcome flag_task = None
  /\ _outcome (fst (kill false flag_task flag_world)) = Some (Value VNone)
  /\ _finished (fst (kill false flag_task flag_world)) = true
  /\ retval (fst (kill false flag_task flag_world)) = Returns VNone.
Proof.
  split; [reflexivity|].
  apply (proj1 (proj2 (@kill_idempotent_forces_completion (list stmt) false
                         flag_task flag_world))).
  reflexivity.
Defined.

Example kill_before_start_runs_nothing :
  w_effects (snd (kill false flag_task flag_world)) = []
  /\ w_scheduled (snd (kill false flag_task flag_world)) = []
  /\ w_effects (snd (first_advance flag_task)) = ["flag"].
Proof. repeat split; reflexivity. Qed.

Lemma advance_stores_stripped_failure_witness :
  exists stored,
    _outcome (after_first_advance failing_task) = Some (Error stored)
    /\ exc_traceback (through_frame "_advance" (through_frame "send" user_failure))
       = "_advance" :: "send" :: exc_traceback user_failure
    /\ stored = remove_traceback_frames
                  (through_frame "_advance" (through_frame "send" user_failure))
                  ["_advance"; "send"]
    /\ exc_traceback stored = exc_traceback user_failure
    /\ exc_type stored = exc_type user_failure
    /\ exc_args stored = exc_args user_failure
    /\ retval (after_first_advance failing_task) = Raises stored.
Proof.
  apply (@advance_stores_stripped_failure (list stmt) body_resume
           failing_task (Value VNone) empty_world ["flag"] [] user_failure);
    reflexivity.
Defined.

Lemma retval_requires_completion_witness :
  retval returning_task
  = Raises (new_exn RuntimeError [VStr "coroutine is not complete"])
  /\ retval (after_first_advance returning_task) = Returns (VInt 1)
  /\ retval (after_first_advance failing_task) = Raises user_failure.
Proof.
  split; [|split].
  - apply (proj1 (@retval_requires_completion (list stmt) returning_task)).
    reflexivity.
  - apply (proj1 (proj2 (@retval_requires_completion (list stmt)
                           (after_first_advance returning_task)))).
    reflexivity.
  - apply (proj2 (proj2 (@retval_requires_completion (list stmt)
                           (after_first_advance failing_task)))).
    reflexivity.
Defined.

Lemma abort_checks_precondition_witness :
  _outcome (task (running waiting_test)) = None
  /\ fst (fst (abort false (fun _ => "Error") waiting_test user_failure empty_world))
     = Returns tt
  /\ _outcome (task (running (snd (fst (abort false (fun _ => "Error") waiting_test
                                          user_failure empty_world)))))
     = Some (Error user_failure)
  /\ retval (task (running (snd (fst (abort false (fun _ => "Error") waiting_test
                                        user_failure empty_world)))))
     = Raises user_failure
  /\ _coro (task (running (snd (fst (abort false (fun _ => "Error") waiting_test
                                       user_failure empty_world)))))
     = _coro (task (running waiting_test))
  /\ w_effects (snd (abort false (fun _ => "Error") waiting_test user_failure
                       empty_world))
     = w_effects empty_world.
Proof.
  split; [reflexivity|].
  apply (proj1 (proj2 (@abort_checks_precondition (list stmt) false (fun _ => "Error")
                         waiting_test user_failure empty_world))).
  reflexivity.
Defined.

(** C5 as stated fails: a body that raises [CoroutineComplete("boom")] leaves
    exactly that exception as the stored outcome, and [retval] raises it. *)
Lemma CoroutineComplete_from_body_is_observable :
  _outcome (after_first_advance signalling_task) = Some (Error body_CoroutineComplete)
  /\ retval (after_first_advance signalling_task) = Raises body_CoroutineComplete
  /\ exc_type body_CoroutineComplete = CoroutineComplete.
Proof. repeat split; reflexivity. Qed.

Lemma advance_captures_CoroutineComplete_witness :
  _outcome (after_first_advance signalling_task) = Some (Error body_CoroutineComplete)
  /\ retval (after_first_advance signalling_task) = Raises body_CoroutineComplete
  /\ fst (fst (first_advance signalling_task)) = Raises (CoroutineComplete_new "").
Proof.
  apply (@advance_captures_CoroutineComplete (list stmt) body_resume
           signalling_task (Value VNone) empty_world [] [] body_CoroutineComplete);
    reflexivity.
Defined.

Lemma advance_stores_returned_value_witness :
  _outcome (after_first_advance (after_first_advance waiting_task))
  = Some (Value (VInt 42))
  /\ _finished (after_first_advance (after_first_advance waiting_task)) = true
  /\ retval (after_first_advance (after_first_advance waiting_task))
     = Returns (VInt 42).
Proof.
  apply (@advance_stores_returned_value (list stmt) body_resume
           (after_first_advance waiting_task) (Value VNone) empty_world [] []
           (ReturnValue_new (VInt 42)) (VInt 42)).
  - reflexivity.
  - right. split; reflexivity.
Defined.

Lemma init_rejects_non_resumable_witness :
  exists e,
    exc_type e = TypeError
    /\ RunningTask_init true body_str SimLog_hex 1 (@OtherObj (list stmt) (VInt 3))
       = Raises e
    /\ (forall parent,
          coroutine_call true body_str SimLog_hex parent 1
            (@OtherObj (list stmt) (VInt 3))
          = Raises e)
    /\ (forall parent,
          test_call true body_str SimLog_hex parent 1
            (@OtherObj (list stmt) (VInt 3))
          = Raises e).
Proof.
  apply (@init_rejects_non_resumable (list stmt) true body_str SimLog_hex 1
           (OtherObj (VInt 3))).
  reflexivity.
Defined.

Lemma sort_name_stage_10_before_2_witness :
  String.compare (sort_name stage_10_test) (sort_name stage_2_test) = Lt
  /\ String.ltb (sort_name stage_10_test) (sort_name stage_2_test) = true.
Proof.
  apply (proj2 (proj2 (@sort_name_stage_10_before_2 (list stmt)
                         stage_10_test stage_2_test)));
    reflexivity.
Defined.

Example sort_names :
  sort_name stage_10_test = "tests.test_dut.10.test_z"
  /\ sort_name stage_2_test = "tests.test_dut.2.test_a"
  /\ sort_name waiting_test = "tests.test_dut.test_wait".
Proof. repeat split; reflexivity. Qed.

(** C9 as stated fails: the logger of [waiting_test] is
    [cocotb.test.Tb.body.0x3].  A record sent to the logger [cocotb], which is
    not that one, is put into the buffer, and a record sent to the logger of
    the test is not. *)
Lemma captured_logs_not_own_namespace :
  RunningTest_init true body_str SimLog_hex 3
    (GeneratorObj "body" "Tb.body" [Yield (VObject "Timer")])
    (test_of_stage "test_wait" None)
  = Returns waiting_test
  /\ log (task (running waiting_test)) = "cocotb.test.Tb.body.0x3"
  /\ rec_name root_record <> log (task (running waiting_test))
  /\ error_messages (RunningTest_handle rec_msg waiting_test root_record)
     = ["from elsewhere"]
  /\ rec_name own_record = log (task (running waiting_test))
  /\ error_messages (RunningTest_handle rec_msg waiting_test own_record) = [].
Proof.
  repeat split; try reflexivity.
  intros H. vm_compute in H. discriminate H.
Qed.

Lemma SimLog_hex_extends (name : string) (ident : nat) :
  exists suffix, SimLog_hex name ident = name ++ suffix.
Proof. eexists. reflexivity. Defined.

Lemma captured_logs_root_logger_only_witness :
  error_messages waiting_test = []
  /\ error_messages (fold_left (RunningTest_handle rec_msg) some_records waiting_test)
     = ["a"; "d"]
  /\ RunningTest_handle rec_msg waiting_test own_record = waiting_test.
Proof.
  destruct (@captured_logs_root_logger_only (list stmt) true body_str SimLog_hex
              rec_msg 3
              (GeneratorObj "body" "Tb.body" [Yield (VObject "Timer")])
              (test_of_stage "test_wait" None) waiting_test some_records eq_refl
              SimLog_hex_extends)
    as [H0 [H1 [_ [_ [_ H5]]]]].
  split; [exact H0 | split; [exact H1 | exact (H5 waiting_test own_record eq_refl)]].
Defined.

(** C10 as stated fails: an exception type given alone is stored as it is,
    which is not a tuple. *)
Lemma expect_error_bare_type_is_not_a_tuple :
  test_expect_error (test_expecting (VClass RuntimeError)) = VClass RuntimeError
  /\ is_exc_type_tuple (test_expect_error (test_expecting (VClass RuntimeError)))
     = false.
Proof. split; reflexivity. Qed.

Lemma test_init_expect_error_witness :
  test_expect_error (test_expecting (VBool true)) = VTuple [VClass Exception]
  /\ test_expect_error (test_expecting (VBool false)) = VTuple []
  /\ test_expect_error (test_expecting (VTuple [VClass RuntimeError; VClass TypeError]))
     = VTuple [VClass RuntimeError; VClass TypeError]
  /\ (is_exc_type (test_expect_error (test_expecting (VClass RuntimeError))) = true
      \/ is_exc_type_tuple (test_expect_error (test_expecting (VClass RuntimeError)))
         = true).
Proof.
  split; [|split; [|split]].
  - apply (proj1 (test_init_expect_error 0 some_function VNone VNone (VBool false)
                    (VBool true) (VBool false) None)).
    reflexivity.
  - apply (proj1 (proj2 (test_init_expect_error 0 some_function VNone VNone
                           (VBool false) (VBool false) (VBool false) None))).
    reflexivity.
  - apply (proj1 (proj2 (proj2 (test_init_expect_error 0 some_function VNone VNone
                                  (VBool false)
                                  (VTuple [VClass RuntimeError; VClass TypeError])
                                  (VBool false) None)))).
    reflexivity.
  - apply (proj1 (proj2 (proj2 (proj2 (test_init_expect_error 0 some_function VNone
                                         VNone (VBool false) (VClass RuntimeError)
                                         (VBool false) None))))).
    right. left. reflexivity.
Defined.


(** ** Further properties of the tasks *)

Section AdvanceProperties.

Variable Frame : Type.
Variable resume : Frame -> resume_cmd -> list string * Frame * resumed.
Variable _debug : bool.
Variable version_ge_3_6 : bool.
Variable str : pyval -> string.
Variable str_Outcome : Outcome -> string.
Variable format : log_record -> string.
Variable time_time : world -> Z.
Variable get_sim_time_ns : world -> Z.

(** [_advance] has two results only.  Either it returns the object the body
    yielded and the stored outcome is what it was, or it raises a new
    [CoroutineComplete] with empty text and the task is finished: no
    exception of the body leaves [_advance].  In both cases the task counts
    as started afterwards. *)
Theorem advance_returns_or_signals (self : RunningTask Frame) outcome w :
  let out := _advance resume self outcome w in
  has_started (snd (fst out)) = true
  /\ ((exists v, fst (fst out) = Returns v
                 /\ _outcome (snd (fst out)) = _outcome self)
      \/ (fst (fst out) = Raises (CoroutineComplete_new "")
          /\ _finished (snd (fst out)) = true)).
Proof.
  unfold _advance, Outcome_send, has_started. simpl.
  destruct (resume (_coro self) (Outcome_cmd outcome)) as [[effs gen] [v|e]]; simpl.
  - split; [reflexivity|]. left. exists v. split; reflexivity.
  - unfold isinstance. simpl. rewrite issubclass_BaseException.
    destruct (issubclass (exc_type e) ReturnValue);
      [|destruct (issubclass (exc_type e) StopIteration)];
      simpl; (split; [reflexivity|]); right; split; reflexivity.
Qed.

(** All [_advance] does to the world is what the body does: its side effects
    are added after the earlier ones, nothing is logged and the runnable set
    of the scheduler stays as it is.  The wrapped computation is left in the
    state the body reached. *)
Theorem advance_world (self : RunningTask Frame) outcome w :
  let out := _advance resume self outcome w in
  let body := resume (_coro self) (Outcome_cmd outcome) in
  w_effects (snd out) = (w_effects w ++ fst (fst body))%list
  /\ w_log (snd out) = w_log w
  /\ w_scheduled (snd out) = w_scheduled w
  /\ _coro (snd (fst out)) = snd (fst body).
Proof.
  unfold _advance, Outcome_send. simpl.
  destruct (resume (_coro self) (Outcome_cmd outcome)) as [[effs gen] [v|e]]; simpl.
  - repeat split; reflexivity.
  - repeat match goal with |- context [if ?b then _ else _] => destruct b end;
      simpl; repeat split; reflexivity.
Qed.

(** [_advance] does not look at the stored outcome.  Whatever outcome a task
    holds, advancing it resumes the body, with the same result and the same
    side effects; and when the body ends there, the outcome held before is
    replaced by the one of the body.  So a task that was killed is run further
    if it is advanced again. *)
Theorem advance_ignores_stored_outcome (self : RunningTask Frame) o outcome w :
  let out := _advance resume self outcome w in
  let out' := _advance resume (set_outcome self o) outcome w in
  fst (fst out') = fst (fst out)
  /\ snd out' = snd out
  /\ _coro (snd (fst out')) = _coro (snd (fst out))
  /\ (forall e, fst (fst out) = Raises e ->
        _outcome (snd (fst out')) = _outcome (snd (fst out))).
Proof.
  unfold _advance, Outcome_send. simpl.
  destruct (resume (_coro self) (Outcome_cmd outcome)) as [[effs gen] [v|e]]; simpl.
  - repeat split; try reflexivity. intros e H. discriminate.
  - unfold isinstance. simpl. rewrite issubclass_BaseException.
    destruct (issubclass (exc_type e) ReturnValue);
      [|destruct (issubclass (exc_type e) StopIteration)];
      simpl; repeat split; reflexivity.
Qed.

(** [send] and [throw] on the task go past the completion protocol: whatever
    the body does, also when it ends, they leave the stored outcome and the
    started flag as they were, and an exception of the body reaches the
    caller with its kind and payload, not as [CoroutineComplete]. *)
Theorem send_throw_bypass_completion (self : RunningTask Frame) value exc w :
  let sent := RunningTask_send resume self value w in
  let thrown := RunningTask_throw resume self exc w in
  _outcome (snd (fst sent)) = _outcome self
  /\ _started (snd (fst sent)) = _started self
  /\ _outcome (snd (fst thrown)) = _outcome self
  /\ _started (snd (fst thrown)) = _started self
  /\ (forall effs gen e,
        resume (_coro self) (Send value) = (effs, gen, Raised e) ->
        exists e', fst (fst sent) = Raises e'
                   /\ exc_type e' = exc_type e /\ exc_args e' = exc_args e)
  /\ (forall effs gen e,
        resume (_coro self) (Throw exc) = (effs, gen, Raised e) ->
        exists e', fst (fst thrown) = Raises e'
                   /\ exc_type e' = exc_type e /\ exc_args e' = exc_args e).
Proof.
  unfold RunningTask_send, RunningTask_throw. simpl.
  destruct (resume (_coro self) (Send value)) as [[effs1 gen1] [v1|e1]];
    destruct (resume (_coro self) (Throw exc)) as [[effs2 gen2] [v2|e2]]; simpl;
    repeat split; try reflexivity; intros effs gen e H; try discriminate;
    injection H as _ _ <-; eexists; repeat split; reflexivity.
Qed.

Lemma force_end_set (st : RunningTest Frame * world) (op : forced_end) (o : Outcome) :
  _outcome (task (running (fst st))) = Some o ->
  _outcome (task (running (fst (force_end _debug str_Outcome st op)))) = Some o.
Proof.
  destruct st as [self w]. simpl. intros H.
  destruct op as [|exc]; simpl.
  - unfold RunningTest_kill, kill. rewrite H. simpl. exact H.
  - unfold abort. rewrite H. simpl. exact H.
Qed.

Lemma force_end_body (st : RunningTest Frame * world) (op : forced_end) :
  let st' := force_end _debug str_Outcome st op in
  _coro (task (running (fst st'))) = _coro (task (running (fst st)))
  /\ w_effects (snd st') = w_effects (snd st).
Proof.
  destruct st as [self w].
  destruct op as [|exc]; simpl.
  - unfold RunningTest_kill, kill.
    destruct (_outcome (task (running self))); simpl; [auto|].
    destruct _debug; simpl; auto.
  - unfold abort.
    destruct (_outcome (task (running self))); simpl; [auto|].
    destruct _debug; simpl; auto.
Qed.

Lemma force_end_unset (st : RunningTest Frame * world) (op : forced_end) :
  _outcome (task (running (fst st))) = None ->
  _outcome (task (running (fst (force_end _debug str_Outcome st op))))
  = Some (forced_outcome op).
Proof.
  destruct st as [self w]. simpl. intros H.
  destruct op as [|exc]; simpl.
  - unfold RunningTest_kill, kill. rewrite H. reflexivity.
  - unfold abort. rewrite H. reflexivity.
Qed.

(** Under [kill] and [abort] the outcome of a test is written once.  Through
    any sequence of such calls an outcome that is set stays the one it is;
    on a test without an outcome the first call of the sequence decides it
    ([Value(None)] for [kill], [Error(exc)] for [abort(exc)]) and the later
    ones change nothing.  No call of the sequence runs the body. *)
Theorem forced_ends_write_once (ops : list forced_end) :
  forall (st : RunningTest Frame * world),
    let st' := fold_left (force_end _debug str_Outcome) ops st in
    (forall o, _outcome (task (running (fst st))) = Some o ->
       _outcome (task (running (fst st'))) = Some o)
    /\ (forall op rest, ops = op :: rest ->
          _outcome (task (running (fst st))) = None ->
          _outcome (task (running (fst st'))) = Some (forced_outcome op))
    /\ _coro (task (running (fst st'))) = _coro (task (running (fst st)))
    /\ w_effects (snd st') = w_effects (snd st).
Proof.
  induction ops as [|op ops IH]; intros st; simpl.
  - repeat split; auto. intros op rest H. discriminate.
  - destruct (IH (force_end _debug str_Outcome st op)) as [Hset [_ [Hcoro Heff]]].
    destruct (force_end_body st op) as [Hc He].
    split; [|split; [|split]].
    + intros o H. apply Hset. apply force_end_set. exact H.
    + intros op' rest Heq Hnone. injection Heq as <- <-.
      apply Hset. apply force_end_unset. exact Hnone.
    + rewrite Hcoro. exact Hc.
    + rewrite Heff. exact He.
Qed.

End AdvanceProperties.

Section TestProperties.

Variable Frame : Type.
Variable resume : Frame -> resume_cmd -> list string * Frame * resumed.
Variable version_ge_3_6 : bool.
Variable str : pyval -> string.
Variable SimLog : string -> nat -> string.
Variable format : log_record -> string.
Variable time_time : world -> Z.
Variable get_sim_time_ns : world -> Z.

Lemma logger_name_below_cocotb (qualname suffix : string) :
  exists rest, ("cocotb.test." ++ qualname) ++ suffix = "cocotb." ++ rest.
Proof. exists ("test." ++ qualname ++ suffix). reflexivity. Qed.

Lemma descendant_of_cocotb (rest : string) :
  String.eqb ("cocotb." ++ rest) "cocotb" = false.
Proof. reflexivity. Qed.

Lemma advance_keeps_log (self : RunningTask Frame) outcome w :
  w_log (snd (_advance resume self outcome w)) = w_log w.
Proof.
  unfold _advance, Outcome_send. simpl.
  destruct (resume (_coro self) (Outcome_cmd outcome)) as [[effs gen] [v|e]]; simpl;
    repeat match goal with |- context [if ?b then _ else _] => destruct b end;
    reflexivity.
Qed.

(** Constructing a task succeeds exactly for a coroutine object or a
    generator.  The task it gives is not started, holds no outcome (so it is
    true as a boolean and [retval] raises), has no callbacks, wraps the
    computation given, and is natively awaitable exactly when that is a
    coroutine object. *)
Theorem init_accepts_resumable (id : nat) (inst : pyobj Frame) :
  ((exists t, RunningTask_init version_ge_3_6 str SimLog id inst = Returns t)
   <-> is_resumable inst = true)
  /\ (forall t, RunningTask_init version_ge_3_6 str SimLog id inst = Returns t ->
        has_started t = false
        /\ _outcome t = None
        /\ RunningTask_bool t = true
        /\ _callbacks t = []
        /\ (forall name qualname fr,
              inst = CoroutineObj name qualname fr ->
              _natively_awaitable t = true /\ _coro t = fr
              /\ __qualname__ t = qualname)
        /\ (forall name qualname fr,
              inst = GeneratorObj name qualname fr ->
              _natively_awaitable t = false /\ _coro t = fr
              /\ __qualname__ t = qualname)).
Proof.
  assert (Hno : is_resumable inst = false ->
                forall t, RunningTask_init version_ge_3_6 str SimLog id inst <> Returns t).
  { intros Hr t H.
    destruct inst as [n q fr | n q fr | n q | v]; try discriminate;
      unfold RunningTask_init in H;
      repeat match type of H with
        | context [if ?b then _ else _] => destruct b
        | context [percent_s ?a ?b ?c ?d] => destruct (percent_s a b c d)
        end;
      discriminate. }
  split.
  - split.
    + intros [t H]. destruct (is_resumable inst) eqn:Hr; [reflexivity|].
      exfalso. exact (Hno eq_refl t H).
    + intros H. destruct inst as [n q fr | n q fr | n q | v]; try discriminate;
        simpl; eexists; reflexivity.
  - intros t H. destruct inst as [n q fr | n q fr | n q | v];
      try (exfalso; exact (Hno eq_refl t H)); simpl in H; injection H as <-;
      repeat split; try reflexivity; simpl; congruence.
Qed.

(** A test takes its start once.  The first [_advance] of a test sets
    [started], reads the two clocks and sends one INFO record to the logger of
    the test.  An [_advance] of a test that has started logs nothing and keeps
    the start times, so of two advances in a row the second never does. *)
Theorem test_start_recorded_once (self : RunningTest Frame) o1 o2 w :
  let adv := RunningTest_advance resume str time_time get_sim_time_ns in
  let out1 := adv self o1 w in
  let out2 := adv (snd (fst out1)) o2 (snd out1) in
  started (snd (fst out1)) = true
  /\ (started self = false ->
      exists r,
        w_log (snd out1) = (w_log w ++ [r])%list
        /\ rec_name r = log (task (running self))
        /\ rec_level r = "INFO")
  /\ (started self = true ->
      w_log (snd out1) = w_log w
      /\ start_time (snd (fst out1)) = start_time self
      /\ start_sim_time (snd (fst out1)) = start_sim_time self)
  /\ w_log (snd out2) = w_log (snd out1)
  /\ start_time (snd (fst out2)) = start_time (snd (fst out1))
  /\ start_sim_time (snd (fst out2)) = start_sim_time (snd (fst out1)).
Proof.
  assert (Hstarted : forall (s : RunningTest Frame) o w0,
             started s = true ->
             let out := RunningTest_advance resume str time_time get_sim_time_ns s o w0 in
             started (snd (fst out)) = true
             /\ w_log (snd out) = w_log w0
             /\ start_time (snd (fst out)) = start_time s
             /\ start_sim_time (snd (fst out)) = start_sim_time s).
  { intros s o w0 Hs. unfold RunningTest_advance. rewrite Hs.
    pose proof (advance_keeps_log (task (running s)) o w0) as Hlog.
    destruct (_advance resume (task (running s)) o w0) as [[r t] w1].
    simpl in *. repeat split; auto. }
  assert (H1 : started
                 (snd (fst (RunningTest_advance resume str time_time get_sim_time_ns
                              self o1 w))) = true).
  { destruct (started self) eqn:Hs.
    - apply Hstarted. exact Hs.
    - unfold RunningTest_advance. rewrite Hs.
      match goal with
      | |- context [_advance resume ?t ?o ?w0] =>
          destruct (_advance resume t o w0) as [[r t'] w1]
      end.
      reflexivity. }
  simpl. split; [exact H1|]. split; [|split].
  - intros Hs. unfold RunningTest_advance. rewrite Hs.
    match goal with
    | |- context [_advance resume ?t ?o ?w0] =>
        pose proof (advance_keeps_log t o w0) as Hlog;
        destruct (_advance resume t o w0) as [[r t'] w1]
    end.
    simpl in *. eexists. split; [exact Hlog|]. split; reflexivity.
  - intros Hs. destruct (Hstarted self o1 w Hs) as [_ H]. exact H.
  - destruct (Hstarted _ o2
                (snd (RunningTest_advance resume str time_time get_sim_time_ns
                        self o1 w)) H1) as [_ H].
    exact H.
Qed.

(** The record a test logs at its start goes to the logger of the test, the
    one [SimLog] gives for [cocotb.test.<qualname>] and the identity of the
    test.  As [SimLog] puts at most a suffix after the name, that logger is
    below [cocotb], and the handler of a test does not put the record into
    [error_messages].  So [_advance] of a test logs nothing that the capture
    keeps. *)
Theorem test_start_record_not_captured id inst parent (rt : RunningTest Frame)
    outcome w r :
  RunningTest_init version_ge_3_6 str SimLog id inst parent = Returns rt ->
  (forall name ident, exists suffix, SimLog name ident = name ++ suffix) ->
  In r (w_log (snd (RunningTest_advance resume str time_time get_sim_time_ns
                      rt outcome w))) ->
  In r (w_log w)
  \/ (rec_name r
      = SimLog ("cocotb.test." ++ __qualname__ (task (running rt)))
          (self_id (task (running rt)))
      /\ forall rt' : RunningTest Frame, RunningTest_handle format rt' r = rt').
Proof.
  intros Hinit HSimLog Hin.
  assert (Hlog : log (task (running rt))
                 = SimLog ("cocotb.test." ++ __qualname__ (task (running rt)))
                     (self_id (task (running rt)))).
  { unfold RunningTest_init in Hinit.
    destruct (RunningCoroutine_init version_ge_3_6 str SimLog id inst
                (test_coroutine parent));
      [|discriminate].
    injection Hinit as <-. reflexivity. }
  unfold RunningTest_advance in Hin.
  destruct (started rt).
  - pose proof (advance_keeps_log (task (running rt)) outcome w) as Hk.
    destruct (_advance resume (task (running rt)) outcome w) as [[x t] w1].
    simpl in *. left. rewrite <- Hk. exact Hin.
  - match type of Hin with
    | context [_advance resume ?t ?o ?w0] =>
        pose proof (advance_keeps_log t o w0) as Hk;
        destruct (_advance resume t o w0) as [[x t'] w1]
    end.
    simpl in Hin, Hk. rewrite Hk in Hin. apply in_app_or in Hin.
    destruct Hin as [Hin | [<- | []]]; [left; exact Hin|].
    right. cbn [rec_name]. split; [exact Hlog|].
    intros rt'. unfold RunningTest_handle, handle. cbn [rec_name]. rewrite Hlog.
    destruct (HSimLog ("cocotb.test." ++ __qualname__ (task (running rt)))
                (self_id (task (running rt)))) as [suffix ->].
    destruct (logger_name_below_cocotb (__qualname__ (task (running rt))) suffix)
      as [rest ->].
    rewrite descendant_of_cocotb. destruct rt'. reflexivity.
Qed.

End TestProperties.

Section SortProperties.

Variable Frame : Type.
Variable version_ge_3_6 : bool.
Variable str : pyval -> string.
Variable SimLog : string -> nat -> string.

Lemma compare_after_prefix (p a b : string) :
  String.compare (p ++ a) (p ++ b) = String.compare a b.
Proof.
  induction p as [|c p IH]; simpl; [reflexivity|].
  unfold Ascii.compare at 1. rewrite N.compare_refl. exact IH.
Qed.

Lemma compare_first_char (c d : ascii) (a b : string) :
  (N_of_ascii c < N_of_ascii d)%N ->
  String.compare (String c a) (String d b) = Lt.
Proof.
  intros H. simpl. unfold Ascii.compare.
  apply N.compare_lt_iff in H. rewrite H. reflexivity.
Qed.

(** ["%d"] gives a text that starts with a minus sign or a digit. *)
Lemma format_d_first_char (n : Z) :
  exists c rest, format_d n = String c rest /\ (N_of_ascii c <= 57)%N.
Proof.
  unfold format_d.
  destruct (Z.to_int n) as [d|d]; simpl.
  - destruct d; simpl; eexists; eexists; (split; [reflexivity|]);
      vm_compute; discriminate.
  - eexists; eexists; (split; [reflexivity|]); vm_compute; discriminate.
Qed.

(** Two tests of one module and one stage (or both without a stage) are
    ordered by their keys as their function names are ordered as strings; in
    particular the keys are equal only for equal function names. *)
Theorem sort_name_same_stage_by_funcname (a b : RunningTest Frame) :
  module (running a) = module (running b) ->
  stage a = stage b ->
  String.compare (sort_name a) (sort_name b)
  = String.compare (funcname (running a)) (funcname (running b))
  /\ (sort_name a = sort_name b -> funcname (running a) = funcname (running b)).
Proof.
  intros Hm Hs.
  assert (H : String.compare (sort_name a) (sort_name b)
              = String.compare (funcname (running a)) (funcname (running b))).
  { unfold sort_name. rewrite Hm, Hs.
    destruct (stage b); rewrite !compare_after_prefix; reflexivity. }
  split; [exact H|].
  intros Heq. apply String.compare_eq_iff. rewrite <- H, Heq.
  clear. induction (sort_name b) as [|c s IH]; simpl; [reflexivity|].
  unfold Ascii.compare. rewrite N.compare_refl. exact IH.
Qed.

(** In one module every test with a stage has a smaller key than every test
    without one, whatever the stage and the names: the stage starts with a
    digit or a minus sign, and a function name starts with a character after
    the digits (a letter or an underscore). *)
Theorem sort_name_staged_before_unstaged (a b : RunningTest Frame) n c rest :
  module (running a) = module (running b) ->
  stage a = Some n ->
  stage b = None ->
  funcname (running b) = String c rest ->
  (57 < N_of_ascii c)%N ->
  String.compare (sort_name a) (sort_name b) = Lt.
Proof.
  intros Hm Ha Hb Hf Hc. unfold sort_name.
  rewrite Ha, Hb, Hm, !compare_after_prefix, Hf.
  destruct (format_d_first_char n) as [d [r [-> Hd]]].
  simpl append. apply compare_first_char. lia.
Qed.

(** For stages from 0 to 9 the keys of one module are ordered as the stages
    are as numbers, whatever the function names. *)
Theorem sort_name_single_digit_stages (a b : RunningTest Frame) (m n : Z) :
  module (running a) = module (running b) ->
  stage a = Some m ->
  stage b = Some n ->
  (0 <= m < n)%Z -> (n <= 9)%Z ->
  String.compare (sort_name a) (sort_name b) = Lt.
Proof.
  intros Hm Ha Hb Hlt Hn. unfold sort_name.
  rewrite Ha, Hb, Hm, !compare_after_prefix.
  assert (Hm' : (m = 0 \/ m = 1 \/ m = 2 \/ m = 3 \/ m = 4 \/ m = 5 \/ m = 6
                 \/ m = 7 \/ m = 8)%Z) by lia.
  assert (Hn' : (n = 1 \/ n = 2 \/ n = 3 \/ n = 4 \/ n = 5 \/ n = 6 \/ n = 7
                 \/ n = 8 \/ n = 9)%Z) by lia.
  repeat (destruct Hm' as [-> | Hm']); try subst m;
    repeat (destruct Hn' as [-> | Hn']); try subst n;
    try lia; reflexivity.
Qed.

(** A running test has the key of the function that was decorated: the
    module and the name are those of the function also when a timeout makes
    [test.__init__] wrap it, and the stage, the id and the normalised
    [expect_error] are those of the decorator. *)
Theorem running_test_metadata _id_count f kw id inst (rt : RunningTest Frame) :
  let t := fst (test_init _id_count f (kw_timeout_time kw) (kw_timeout_unit kw)
                  (kw_expect_fail kw) (kw_expect_error kw) (kw_skip kw)
                  (kw_stage kw)) in
  test_call version_ge_3_6 str SimLog t id inst = Returns rt ->
  name t = f__name__ f
  /\ funcname (running rt) = f__name__ f
  /\ module (running rt) = f__module__ f
  /\ __doc__ (running rt) = f__doc__ f
  /\ stage rt = kw_stage kw
  /\ _id rt = _id_count
  /\ expect_error rt = test_expect_error t
  /\ sort_name rt
     = match kw_stage kw with
       | None => f__module__ f ++ "." ++ f__name__ f
       | Some n => f__module__ f ++ "." ++ format_d n ++ "." ++ f__name__ f
       end.
Proof.
  intros t H.
  assert (Hn : forall g, f__name__ (match kw_timeout_time kw with
                                     | VNone => g | _ => TimeoutWrapped g end)
                         = f__name__ g)
    by (intros g; destruct (kw_timeout_time kw); reflexivity).
  assert (Hmod : forall g, f__module__ (match kw_timeout_time kw with
                                         | VNone => g | _ => TimeoutWrapped g end)
                           = f__module__ g)
    by (intros g; destruct (kw_timeout_time kw); reflexivity).
  assert (Hdoc : forall g, f__doc__ (match kw_timeout_time kw with
                                      | VNone => g | _ => TimeoutWrapped g end)
                           = f__doc__ g)
    by (intros g; destruct (kw_timeout_time kw); reflexivity).
  unfold test_call, RunningTest_init, RunningCoroutine_init in H.
  destruct (RunningTask_init version_ge_3_6 str SimLog id inst) as [tk|e]; [|discriminate].
  injection H as <-. subst t. unfold sort_name, test_init. simpl.
  rewrite Hn, Hmod, Hdoc. repeat split; reflexivity.
Qed.

End SortProperties.

(** The ids of the tests of a file count up from [_id_count] in the order of
    definition, one per test: they differ from each other, and the counter
    ends as many higher as there are tests. *)
Theorem define_tests_ids (defs : list (pyfunc * test_kwargs)) :
  forall _id_count,
    map test_id (fst (define_tests _id_count defs)) = seq _id_count (List.length defs)
    /\ snd (define_tests _id_count defs) = _id_count + List.length defs
    /\ NoDup (map test_id (fst (define_tests _id_count defs))).
Proof.
  assert (H : forall c,
             map test_id (fst (define_tests c defs)) = seq c (List.length defs)
             /\ snd (define_tests c defs) = c + List.length defs).
  { induction defs as [|[f kw] defs IH]; intros c; simpl.
    - split; [reflexivity|lia].
    - destruct (IH (S c)) as [Hids Hcount].
      destruct (define_tests (S c) defs) as [ts c'].
      simpl in *. rewrite Hids, Hcount. split; [reflexivity|lia]. }
  intros c. destruct (H c) as [Hids Hcount].
  repeat split; auto. rewrite Hids. apply seq_NoDup.
Qed.

Lemma existsb_eqb_In (x : string) (l : list string) :
  existsb (String.eqb x) l = true <-> In x l.
Proof.
  rewrite existsb_exists. split.
  - intros [y [Hin Heq]]. apply String.eqb_eq in Heq. subst. exact Hin.
  - intros Hin. exists x. split; [exact Hin | apply String.eqb_refl].
Qed.

(** [public(f)] needs the module of [f] loaded: for a module that is not in
    [sys.modules] it raises [KeyError] and changes nothing.  For a loaded
    module it keeps [__all__] free of duplicates: afterwards the name of [f]
    is in the [__all__] of its module, the names that were there are still
    there in their order and in front, and no other module is touched.  A
    second [public(f)] changes nothing more, and [f] itself is given back. *)
Theorem public_exports_once (f : pyfunc) (mods : sys_modules) :
  (mods (f__module__ f) = None ->
   public f mods = (Raises (new_exn KeyError [VStr (f__module__ f)]), mods))
  /\ (forall entry old,
        mods (f__module__ f) = Some entry ->
        old = match entry with Some l => l | None => [] end ->
        NoDup old ->
        fst (public f mods) = Returns f
        /\ (exists new,
              snd (public f mods) (f__module__ f) = Some (Some new)
              /\ In (f__name__ f) new
              /\ NoDup new
              /\ (new = old \/ new = (old ++ [f__name__ f])%list)
              /\ fst (public f (snd (public f mods))) = Returns f
              /\ snd (public f (snd (public f mods))) (f__module__ f)
                 = Some (Some new))
        /\ (forall m, m <> f__module__ f -> snd (public f mods) m = mods m)).
Proof.
  split.
  - intros H. unfold public. rewrite H. reflexivity.
  - intros entry old Hentry Hold Hnd.
    unfold public. rewrite Hentry, <- Hold. simpl.
    rewrite String.eqb_refl. simpl.
    split; [reflexivity|]. split.
    + destruct (existsb (String.eqb (f__name__ f)) old) eqn:E.
      * exists old. rewrite E. simpl.
        rewrite ?String.eqb_refl. simpl. rewrite ?E. simpl.
        rewrite ?String.eqb_refl.
        apply existsb_eqb_In in E. repeat split; auto.
      * exists (old ++ [f__name__ f])%list.
        assert (Hnot : ~ In (f__name__ f) old).
        { intros Hin. apply existsb_eqb_In in Hin. congruence. }
        assert (Hin : In (f__name__ f) (old ++ [f__name__ f]))
          by (apply in_or_app; right; left; reflexivity).
        assert (E' := proj2 (existsb_eqb_In (f__name__ f) _) Hin).
        simpl. rewrite ?String.eqb_refl. simpl. rewrite ?E'. simpl.
        rewrite ?String.eqb_refl.
        repeat split; auto.
        apply NoDup_app; repeat split; auto.
        -- constructor; [intros []|constructor].
        -- intros x Hx [<- | []]. exact (Hnot Hx).
    + intros m Hm. apply String.eqb_neq in Hm. rewrite Hm. reflexivity.
Qed.

(** ** The further properties at concrete tasks *)

Lemma public_exports_once_witness :
  public unloaded_function some_modules
  = (Raises (new_exn KeyError [VStr "tests.not_loaded"]), some_modules)
  /\ fst (public some_function some_modules) = Returns some_function
  /\ (exists new,
        snd (public some_function some_modules) (f__module__ some_function)
        = Some (Some new)
        /\ In (f__name__ some_function) new
        /\ NoDup new
        /\ (new = ["helper"] \/ new = (["helper"] ++ [f__name__ some_function])%list)
        /\ fst (public some_function (snd (public some_function some_modules)))
           = Returns some_function
        /\ snd (public some_function (snd (public some_function some_modules)))
             (f__module__ some_function) = Some (Some new)).
Proof.
  split.
  - apply (proj1 (public_exports_once unloaded_function some_modules)).
    reflexivity.
  - destruct (proj2 (public_exports_once some_function some_modules)
                (Some ["helper"]) ["helper"] eq_refl eq_refl) as [H1 [H2 _]].
    + constructor; [intros []|constructor].
    + split; [exact H1 | exact H2].
Defined.

Example public_appends_name :
  snd (public some_function some_modules) "tests.test_dut"
  = Some (Some ["helper"; "test_dut"]).
Proof. reflexivity. Qed.

Lemma init_accepts_resumable_witness :
  is_resumable (GeneratorObj "body" "Tb.body" [Return (VInt 1)]) = true
  /\ has_started returning_task = false
  /\ _outcome returning_task = None
  /\ RunningTask_bool returning_task = true.
Proof.
  split.
  - apply (proj1 (proj1 (@init_accepts_resumable (list stmt) true body_str SimLog_hex 1
                           (GeneratorObj "body" "Tb.body" [Return (VInt 1)])))).
    exists returning_task. reflexivity.
  - destruct (proj2 (@init_accepts_resumable (list stmt) true body_str SimLog_hex 1
                       (GeneratorObj "body" "Tb.body" [Return (VInt 1)]))
                returning_task eq_refl) as [H1 [H2 [H3 _]]].
    repeat split; assumption.
Defined.

(** A killed task that is advanced all the same runs its body, and the
    outcome of the body replaces [Value(None)]. *)
Lemma advance_ignores_stored_outcome_witness :
  _outcome (snd (fst (_advance body_resume
                        (set_outcome flag_task (Some (Value VNone)))
                        (Value VNone) empty_world)))
  = _outcome (after_first_advance flag_task).
Proof.
  apply (proj2 (proj2 (proj2 (@advance_ignores_stored_outcome (list stmt) body_resume
                                flag_task (Some (Value VNone)) (Value VNone)
                                empty_world)))
           (CoroutineComplete_new "")).
  reflexivity.
Defined.

Example advance_after_kill :
  set_outcome flag_task (Some (Value VNone)) = fst (kill false flag_task flag_world)
  /\ _outcome (after_first_advance (fst (kill false flag_task flag_world)))
     = Some (Value (VInt 1))
  /\ w_effects (snd (first_advance (fst (kill false flag_task flag_world))))
     = ["flag"].
Proof. repeat split; reflexivity. Qed.

Lemma send_throw_bypass_completion_witness :
  exists e',
    fst (fst (RunningTask_send body_resume failing_task VNone empty_world)) = Raises e'
    /\ exc_type e' = exc_type user_failure
    /\ exc_args e' = exc_args user_failure.
Proof.
  apply (proj1 (proj2 (proj2 (proj2 (proj2
           (@send_throw_bypass_completion (list stmt) body_resume failing_task VNone
              user_failure empty_world)))))
           ["flag"] [] user_failure).
  reflexivity.
Defined.

Lemma forced_ends_write_once_witness :
  _outcome (task (running (fst (fold_left (force_end false (fun _ => "Error"))
                                  some_ends (waiting_test, empty_world)))))
  = Some (Error user_failure).
Proof.
  apply (proj1 (proj2 (@forced_ends_write_once (list stmt) false (fun _ => "Error")
                         some_ends (waiting_test, empty_world)))
           (Abort user_failure) [Kill; Abort body_CoroutineComplete]).
  - reflexivity.
  - reflexivity.
Defined.

Lemma test_start_recorded_once_witness :
  exists r,
    w_log (snd waiting_test_started) = (w_log empty_world ++ [r])%list
    /\ rec_name r = log (task (running waiting_test))
    /\ rec_level r = "INFO".
Proof.
  apply (proj1 (proj2 (@test_start_recorded_once (list stmt) body_resume body_str
                         no_clock no_clock waiting_test (Value VNone) (Value VNone)
                         empty_world))).
  reflexivity.
Defined.

Lemma test_start_record_not_captured_witness :
  In start_record (w_log empty_world)
  \/ (rec_name start_record
      = SimLog_hex ("cocotb.test." ++ __qualname__ (task (running waiting_test)))
          (self_id (task (running waiting_test)))
      /\ forall rt' : RunningTest (list stmt),
           RunningTest_handle rec_msg rt' start_record = rt').
Proof.
  apply (@test_start_record_not_captured (list stmt) body_resume true body_str
           SimLog_hex rec_msg no_clock no_clock 3
           (GeneratorObj "body" "Tb.body" [Yield (VObject "Timer")])
           (test_of_stage "test_wait" None) waiting_test (Value VNone) empty_world
           start_record).
  - reflexivity.
  - exact SimLog_hex_extends.
  - left. reflexivity.
Defined.

Example start_record_name :
  rec_name start_record = "cocotb.test.Tb.body.0x3".
Proof. reflexivity. Qed.

Lemma sort_name_same_stage_by_funcname_witness :
  String.compare (sort_name stage_2_test) (sort_name stage_2_test_b)
  = String.compare (funcname (running stage_2_test))
                   (funcname (running stage_2_test_b))
  /\ (sort_name stage_2_test = sort_name stage_2_test_b ->
      funcname (running stage_2_test) = funcname (running stage_2_test_b)).
Proof.
  apply (@sort_name_same_stage_by_funcname (list stmt) stage_2_test stage_2_test_b);
    reflexivity.
Defined.

Lemma sort_name_staged_before_unstaged_witness :
  String.compare (sort_name stage_10_test) (sort_name waiting_test) = Lt.
Proof.
  apply (@sort_name_staged_before_unstaged (list stmt) stage_10_test waiting_test
           10%Z "t"%char "est_wait");
    reflexivity.
Defined.

Lemma sort_name_single_digit_stages_witness :
  String.compare (sort_name stage_2_test) (sort_name stage_7_test) = Lt.
Proof.
  apply (@sort_name_single_digit_stages (list stmt) stage_2_test stage_7_test 2%Z 7%Z);
    try reflexivity; lia.
Defined.

Lemma running_test_metadata_witness :
  name timed_test = "test_dut"
  /\ funcname (running timed_running_test) = "test_dut"
  /\ module (running timed_running_test) = "tests.test_dut"
  /\ stage timed_running_test = Some 3%Z
  /\ _id timed_running_test = 5
  /\ expect_error timed_running_test = VTuple [VClass Exception]
  /\ sort_name timed_running_test = "tests.test_dut.3.test_dut".
Proof.
  destruct (@running_test_metadata (list stmt) true body_str SimLog_hex 5 some_function
              (timed_kwargs (Some 3%Z)) 9
              (GeneratorObj "body" "Tb.body" [Yield (VObject "Timer")])
              timed_running_test eq_refl)
    as [H1 [H2 [H3 [_ [H5 [H6 [H7 H8]]]]]]].
  repeat split; assumption.
Defined.
